(** * Minima search of the flux qubit in the VCHOS basis

    A shallow embedding of [FluxQubitVCHOSFunctions._ramp] and
    [FluxQubitVCHOSFunctions.find_minima]
    (scqubits/core/flux_qubit_vchos.py) and the properties of the search
    that drive the local optimizer over the anchor seed and the ramp seeds.

    Python floats and the entries of the numpy arrays are IEEE binary64
    numbers: they are Rocq's primitive floats.  The qubit object, the Python
    list objects and the calls made to the external collaborators live in an
    explicit world that the methods thread through a state monad. *)

From Stdlib Require Import ZArith List Bool Lia Floats.
From stdpp Require Import base option list.
Import ListNotations.

#[local] Set Warnings "-inexact-float".
#[local] Open Scope Z_scope.

(** ** Data *)

(** A numpy array of two floats: a point (phi1, phi2) of phase space. *)
Definition Vec2 : Type := (float * float)%type.

(** IEEE equality of both coordinates (what [==] gives on each entry). *)
Definition vec2_eqb (a b : Vec2) : bool :=
  (PrimFloat.eqb (fst a) (fst b) && PrimFloat.eqb (snd a) (snd b))%bool.

(** [scipy.optimize.OptimizeResult]: the solution [x] and what the optimizer
    reports about the run. *)
Module OptimizeResult.
Record t : Type := mk {
  x : Vec2;
  fun_ : float;
  success : bool;
  status : Z;
  nit : nat
}.
End OptimizeResult.

(** The device parameters handed to the constructor. *)
Record DeviceParameters : Type := mkDeviceParameters {
  EJ1 : float; EJ2 : float; EJ3 : float;
  ng1 : float; ng2 : float;
  ECJ1 : float; ECJ2 : float; ECJ3 : float;
  ECg1 : float; ECg2 : float;
  flux : float
}.

(** The attributes of a [FluxQubitVCHOSFunctions] object. *)
Record FluxQubitVCHOSFunctions : Type := mkFluxQubitVCHOSFunctions {
  params : DeviceParameters;
  boundary_coefficients : list Z
}.

(** Modelled from the spec: [FluxQubitFunctions.__init__] is not part of the
    sources at hand; the spec's data model has it keep each device parameter
    under its own name. *)
Definition FluxQubitFunctions__init__
    (EJ1 EJ2 EJ3 ng1 ng2 ECg1 ECg2 ECJ1 ECJ2 ECJ3 flux : float)
  : DeviceParameters :=
  mkDeviceParameters EJ1 EJ2 EJ3 ng1 ng2 ECJ1 ECJ2 ECJ3 ECg1 ECg2 flux.

(** [FluxQubitVCHOSFunctions.__init__]: the base class stores the device
    parameters, then the boundary coefficients are set to [+1, -1]. *)
Definition __init__
    (EJ1 EJ2 EJ3 ng1 ng2 ECJ1 ECJ2 ECJ3 ECg1 ECg2 flux : float)
  : FluxQubitVCHOSFunctions :=
  {| params :=
       FluxQubitFunctions__init__ EJ1 EJ2 EJ3 ng1 ng2 ECg1 ECg2 ECJ1 ECJ2 ECJ3 flux;
     boundary_coefficients := [1; -1] |}.

(** ** The world *)

(** Address of a Python list object. *)
Definition loc : Type := nat.

(** Calls to the external collaborators, with their arguments. *)
Inductive event : Type :=
| EvMinimize (guess : Vec2)
| EvCheckNew (candidate : Vec2) (holder : list Vec2)
| EvNormalize (minimum : Vec2).

Record World : Type := mkWorld {
  self : FluxQubitVCHOSFunctions;
  lists : list (list Vec2);
  log : list event
}.

(** ** State monad over the world *)

Definition M (A : Type) : Type := World -> A * World.

Definition ret {A} (a : A) : M A := fun w => (a, w).

Definition bind {A B} (m : M A) (k : A -> M B) : M B :=
  fun w => let (a, w') := m w in k a w'.

Notation "'let*' x ':=' m 'in' k" := (bind m (fun x => k))
  (at level 10, x name, m at level 100, k at level 200).
Notation "'let*' ' p ':=' m 'in' k" := (bind m (fun p => k))
  (at level 10, p pattern, m at level 100, k at level 200).

(** Read an attribute of [self]. *)
Definition getattr {A} (attr : FluxQubitVCHOSFunctions -> A) : M A :=
  fun w => (attr (self w), w).

(** [[]]: a fresh, empty list object. *)
Definition new_list : M loc :=
  fun w => (length (lists w),
            mkWorld (self w) (lists w ++ [[]]) (log w)).

(** The elements of the list object at [r]. *)
Definition contents (r : loc) (w : World) : list Vec2 :=
  default [] (lists w !! r).

(** [holder.append(v)]: the list object is changed in place. *)
Definition list_append (r : loc) (v : Vec2) : M unit :=
  fun w => (tt, mkWorld (self w) (alter (fun l => l ++ [v]) r (lists w)) (log w)).

(** Python's [range(start, stop)]. *)
Definition range (start stop : Z) : list Z :=
  map (fun i => start + Z.of_nat i) (seq 0 (Z.to_nat (stop - start))).

(** An int used in float arithmetic.  Exact below 2^53 in absolute value,
    which covers the indices -3 .. 3 the search uses; from 2^63 on the
    conversion wraps, where Python rounds to the nearest float or raises
    [OverflowError]. *)
Definition float_of_int (k : Z) : float :=
  if k <? 0 then PrimFloat.opp (PrimFloat.of_uint63 (Uint63.of_Z (- k)))
  else PrimFloat.of_uint63 (Uint63.of_Z k).

(** [np.pi] *)
Definition np_pi : float := 3.141592653589793%float.

(** ** The search *)

Section Search.

(** The methods and functions the search calls but does not define:
    [self.potential] (class [FluxQubitFunctions]), [scipy.optimize.minimize],
    and the two callables declared on the class, [_check_if_new_minima]
    and [normalize_minimum_inside_pi_range].  They read the object and
    their arguments, and change nothing. *)
Variable potential : FluxQubitVCHOSFunctions -> Vec2 -> float.
Variable minimize : (Vec2 -> float) -> Vec2 -> OptimizeResult.t.
Variable _check_if_new_minima :
  FluxQubitVCHOSFunctions -> Vec2 -> list Vec2 -> bool.
Variable normalize_minimum_inside_pi_range :
  FluxQubitVCHOSFunctions -> Vec2 -> Vec2.

(** [minimize(self.potential, guess)] *)
Definition call_minimize (guess : Vec2) : M OptimizeResult.t :=
  fun w => (minimize (potential (self w)) guess,
            mkWorld (self w) (lists w) (log w ++ [EvMinimize guess])).

(** [self._check_if_new_minima(new_minima, minima_holder)] *)
Definition call_check_if_new_minima (new_minima : Vec2) (minima_holder : loc)
  : M bool :=
  fun w => (_check_if_new_minima (self w) new_minima (contents minima_holder w),
            mkWorld (self w) (lists w)
              (log w ++ [EvCheckNew new_minima (contents minima_holder w)])).

(** [self.normalize_minimum_inside_pi_range(minimum)] *)
Definition call_normalize_minimum_inside_pi_range (minimum : Vec2) : M Vec2 :=
  fun w => (normalize_minimum_inside_pi_range (self w) minimum,
            mkWorld (self w) (lists w) (log w ++ [EvNormalize minimum])).

(** The seed of the ramp at index [k]:
    [np.array([1.15 * 2.0 * np.pi * k / 3.0, 2.0 * np.pi * k / 3.0])]. *)
Definition ramp_guess (k : Z) : Vec2 :=
  ((1.15 * 2.0 * np_pi * float_of_int k / 3.0)%float,
   (2.0 * np_pi * float_of_int k / 3.0)%float).

(** [_ramp(self, k, minima_holder)] *)
Definition _ramp (k : Z) (minima_holder : loc) : M (loc * bool) :=
  let guess := ramp_guess k in
  let* result := call_minimize guess in
  let* new_minima :=
    call_check_if_new_minima (OptimizeResult.x result) minima_holder in
  let* _ :=
    if new_minima : bool then
      let* m :=
        call_normalize_minimum_inside_pi_range (OptimizeResult.x result) in
      list_append minima_holder m
    else ret tt in
  ret (minima_holder, new_minima).

(** The [for k in ...: ...; if ...: break] loop of [find_minima], over the
    indices still to come. *)
Fixpoint ramp_loop (ks : list Z) (minima_holder : loc) : M loc :=
  match ks with
  | [] => ret minima_holder
  | k :: ks' =>
      let* '(minima_holder, new_minima_positive) := _ramp k minima_holder in
      let* '(minima_holder, new_minima_negative) := _ramp (- k) minima_holder in
      if negb (new_minima_positive && new_minima_negative)
      then ret minima_holder
      else ramp_loop ks' minima_holder
  end.

(** [find_minima(self)] *)
Definition find_minima : M loc :=
  let* minima_holder := new_list in
  let* flux_ := getattr (fun q => flux (params q)) in
  let guess : Vec2 :=
    if PrimFloat.eqb flux_ 0.5 then (0.15, 0.1)%float else (0.0, 0.0)%float in
  let* result := call_minimize guess in
  let* m := call_normalize_minimum_inside_pi_range (OptimizeResult.x result) in
  let* _ := list_append minima_holder m in
  ramp_loop (range 1 4) minima_holder.

(** ** Vocabulary of the properties *)

(** The minima set a call hands back: the elements of the list it returns. *)
Definition returned_minima (run : loc * World) : list Vec2 :=
  contents (fst run) (snd run).

(** The calls [find_minima] makes when started in [w], in order. *)
Definition run_log (w : World) : list event :=
  drop (length (log w)) (log (snd (find_minima w))).

(** The seeds handed to the optimizer along a log, in order. *)
Definition minimize_seeds (tr : list event) : list Vec2 :=
  flat_map (fun e => match e with EvMinimize g => [g] | _ => [] end) tr.

(** The coordinates the optimizer returns from a seed. *)
Definition raw_minimum (q : FluxQubitVCHOSFunctions) (guess : Vec2) : Vec2 :=
  OptimizeResult.x (minimize (potential q) guess).

(** The seed of the anchor step. *)
Definition anchor_guess (q : FluxQubitVCHOSFunctions) : Vec2 :=
  if PrimFloat.eqb (flux (params q)) 0.5
  then (0.15, 0.1)%float else (0.0, 0.0)%float.

(** The ramp at index [k] was run: the optimizer was started from its seed. *)
Definition ramp_ran (tr : list event) (k : Z) : Prop :=
  In (EvMinimize (ramp_guess k)) tr.

(** The ramp at index [k] produced a new minimum: the deduplicator, called
    right after the optimizer was started from the seed of [k], answered
    [True]. *)
Definition ramp_new (q : FluxQubitVCHOSFunctions) (tr : list event) (k : Z)
  : Prop :=
  exists pre cand holder post,
    tr = pre ++ EvMinimize (ramp_guess k) :: EvCheckNew cand holder :: post /\
    _check_if_new_minima q cand holder = true.

(** The ramp step as the specification words it: the optimizer result is
    normalized first, and the normalized point is the one tested. *)
Definition _ramp_normalize_then_test (k : Z) (minima_holder : loc)
  : M (loc * bool) :=
  let guess := ramp_guess k in
  let* result := call_minimize guess in
  let* m := call_normalize_minimum_inside_pi_range (OptimizeResult.x result) in
  let* new_minima := call_check_if_new_minima m minima_holder in
  let* _ := if new_minima : bool then list_append minima_holder m else ret tt in
  ret (minima_holder, new_minima).

(** Every candidate handed to the deduplicator by the ramp at [k] is the
    normalized optimizer result. *)
Definition ramp_tests_normalized (k : Z) (r : loc) (w : World) : Prop :=
  forall cand holder,
    In (EvCheckNew cand holder)
       (drop (length (log w)) (log (snd (_ramp k r w)))) ->
    cand = normalize_minimum_inside_pi_range (self w)
             (raw_minimum (self w) (ramp_guess k)).

(** *** The search on the minima set alone

    What one ramp and the loop do to the elements of the minima holder and
    to the calls made so far; the monadic code is related to these below. *)

(** One ramp: the optimizer result is tested as it is; when new, its
    normalization is appended. *)
Definition ramp_step (q : FluxQubitVCHOSFunctions) (k : Z)
    (st : list Vec2 * list event) : (list Vec2 * list event) * bool :=
  let x := raw_minimum q (ramp_guess k) in
  if _check_if_new_minima q x (fst st)
  then ((fst st ++ [normalize_minimum_inside_pi_range q x],
         snd st ++ [EvMinimize (ramp_guess k); EvCheckNew x (fst st);
                    EvNormalize x]), true)
  else ((fst st,
         snd st ++ [EvMinimize (ramp_guess k); EvCheckNew x (fst st)]), false).

(** The loop: both ramps of an index, then on to the next index only when
    both were new. *)
Fixpoint ramp_steps (q : FluxQubitVCHOSFunctions) (ks : list Z)
    (st : list Vec2 * list event) : list Vec2 * list event :=
  match ks with
  | [] => st
  | k :: ks' =>
      let '(st1, p) := ramp_step q k st in
      let '(st2, n) := ramp_step q (- k) st1 in
      if negb (p && n) then st2 else ramp_steps q ks' st2
  end.

(** The holder and the calls after the anchor step. *)
Definition anchor_state (q : FluxQubitVCHOSFunctions)
  : list Vec2 * list event :=
  let x := raw_minimum q (anchor_guess q) in
  ([normalize_minimum_inside_pi_range q x],
   [EvMinimize (anchor_guess q); EvNormalize x]).

(** After the first, every element of the holder is the normalization of a
    candidate that the deduplicator declared new against the elements
    before it. *)
Definition appended_when_new (q : FluxQubitVCHOSFunctions) (S : list Vec2)
  : Prop :=
  forall i m, (0 < i)%nat -> S !! i = Some m ->
    exists x, m = normalize_minimum_inside_pi_range q x /\
              _check_if_new_minima q x (take i S) = true.

(** *** Deciding the vocabulary on a log *)

(** The same two floats in both coordinates. *)
Definition vec2_same (a b : Vec2) : bool :=
  (PrimFloat.Leibniz.eqb (fst a) (fst b) &&
   PrimFloat.Leibniz.eqb (snd a) (snd b))%bool.

(** [ramp_ran], decided. *)
Definition ramp_ranb (tr : list event) (k : Z) : bool :=
  existsb (fun e => match e with
                    | EvMinimize g => vec2_same g (ramp_guess k)
                    | _ => false
                    end) tr.

(** [ramp_new], decided. *)
Fixpoint ramp_newb (q : FluxQubitVCHOSFunctions) (tr : list event) (k : Z)
  : bool :=
  match tr with
  | [] => false
  | e :: tl =>
      (match e, tl with
       | EvMinimize g, EvCheckNew cand holder :: _ =>
           vec2_same g (ramp_guess k) && _check_if_new_minima q cand holder
       | _, _ => false
       end || ramp_newb q tl k)%bool
  end.

(** The two seeds of the ramp step at index [k], in the order they are used. *)
Definition step_seeds (k : Z) : list Vec2 := [ramp_guess k; ramp_guess (- k)].

(** *** Further vocabulary *)

(** The points handed to the normalizer along a log, in order. *)
Definition normalized_points (tr : list event) : list Vec2 :=
  flat_map (fun e => match e with EvNormalize x => [x] | _ => [] end) tr.

(** The calls to the deduplicator along a log, in order: the candidate and
    the elements of the holder at the time of the call. *)
Definition check_calls (tr : list event) : list (Vec2 * list Vec2) :=
  flat_map (fun e => match e with
                     | EvCheckNew cand holder => [(cand, holder)]
                     | _ => []
                     end) tr.

End Search.

(** ** Concrete collaborators, for running the search *)

Module Demo.

(** A potential that is flat everywhere. *)
Definition flat_potential (_ : FluxQubitVCHOSFunctions) (_ : Vec2) : float :=
  0%float.

(** An optimizer that stays at its seed and reports convergence. *)
Definition stay_minimize (f : Vec2 -> float) (guess : Vec2) : OptimizeResult.t :=
  OptimizeResult.mk guess (f guess) true 0 0%nat.

(** The same optimizer, reporting that it did not converge. *)
Definition stay_minimize_failed (f : Vec2 -> float) (guess : Vec2)
  : OptimizeResult.t :=
  OptimizeResult.mk guess (f guess) false 2 200%nat.

(** A deduplicator that declares every candidate new. *)
Definition always_new (_ : FluxQubitVCHOSFunctions) (_ : Vec2) (_ : list Vec2)
  : bool := true.

(** A normalizer that leaves the point where it is. *)
Definition keep (_ : FluxQubitVCHOSFunctions) (v : Vec2) : Vec2 := v.

(** One coordinate folded towards (-pi, pi] by at most [fuel] periods. *)
Fixpoint fold_pi (fuel : nat) (phi : float) : float :=
  match fuel with
  | O => phi
  | S fuel' =>
      if PrimFloat.ltb np_pi phi then fold_pi fuel' (phi - 2 * np_pi)%float
      else if PrimFloat.leb phi (- np_pi)%float
           then fold_pi fuel' (phi + 2 * np_pi)%float
           else phi
  end.

(** A normalizer that folds both coordinates. *)
Definition fold_normalize (_ : FluxQubitVCHOSFunctions) (v : Vec2) : Vec2 :=
  (fold_pi 4 (fst v), fold_pi 4 (snd v)).

(** The half planes a point lies in. *)
Definition quadrant (v : Vec2) : bool * bool :=
  (PrimFloat.ltb (fst v) 0, PrimFloat.ltb (snd v) 0).

(** Two points are the same minimum when they lie in the same quadrant. *)
Definition same_quadrant (a b : Vec2) : Prop := quadrant a = quadrant b.

(** [same_quadrant], decided. *)
Definition same_quadrantb (a b : Vec2) : bool :=
  (Bool.eqb (fst (quadrant a)) (fst (quadrant b)) &&
   Bool.eqb (snd (quadrant a)) (snd (quadrant b)))%bool.

(** The deduplicator of that equivalence. *)
Definition quadrant_check (_ : FluxQubitVCHOSFunctions) (x : Vec2)
    (holder : list Vec2) : bool :=
  forallb (fun m => negb (same_quadrantb x m)) holder.

(** The default device of the package, away from the frustration point. *)
Definition default_qubit : FluxQubitVCHOSFunctions :=
  __init__ 1 1 0.8 0 0 0.1 0.1 0.1 5 5 0.46.

(** The same device at the frustration point. *)
Definition frustrated_qubit : FluxQubitVCHOSFunctions :=
  __init__ 1 1 0.8 0 0 0.1 0.1 0.1 5 5 0.5.

(** A world with the default device, no list and no call made yet. *)
Definition fresh_world : World := mkWorld default_qubit [] [].

(** A world in which other lists exist and calls were already logged. *)
Definition used_world : World :=
  mkWorld default_qubit [[(1, 2)%float]; []] [EvNormalize (0, 0)%float].

(** A deduplicator that compares the candidate with the stored points as
    they are, coordinate by coordinate. *)
Definition exact_check (_ : FluxQubitVCHOSFunctions) (x : Vec2)
    (holder : list Vec2) : bool :=
  forallb (fun m => negb (vec2_eqb x m)) holder.

(** A world whose only list already holds the folded seed of index 2. *)
Definition holder_world : World :=
  mkWorld default_qubit [[fold_normalize default_qubit (ramp_guess 2)]] [].

(** Another device, with other energies and another flux away from 0.5. *)
Definition other_qubit : FluxQubitVCHOSFunctions :=
  __init__ 2 2 1.5 0.25 0.25 0.2 0.2 0.2 10 10 0.3.

Definition other_world : World := mkWorld other_qubit [[]] [].

End Demo.

(** ** Properties *)

Section Properties.

Variable potential : FluxQubitVCHOSFunctions -> Vec2 -> float.
Variable minimize : (Vec2 -> float) -> Vec2 -> OptimizeResult.t.
Variable _check_if_new_minima :
  FluxQubitVCHOSFunctions -> Vec2 -> list Vec2 -> bool.
Variable normalize_minimum_inside_pi_range :
  FluxQubitVCHOSFunctions -> Vec2 -> Vec2.

#[local] Abbreviation Ramp :=
  (_ramp potential minimize _check_if_new_minima
     normalize_minimum_inside_pi_range).
#[local] Abbreviation RampLoop :=
  (ramp_loop potential minimize _check_if_new_minima
     normalize_minimum_inside_pi_range).
#[local] Abbreviation FindMinima :=
  (find_minima potential minimize _check_if_new_minima
     normalize_minimum_inside_pi_range).
#[local] Abbreviation RampStep :=
  (ramp_step potential minimize _check_if_new_minima
     normalize_minimum_inside_pi_range).
#[local] Abbreviation RampSteps :=
  (ramp_steps potential minimize _check_if_new_minima
     normalize_minimum_inside_pi_range).
#[local] Abbreviation AnchorState :=
  (anchor_state potential minimize normalize_minimum_inside_pi_range).
#[local] Abbreviation RunLog :=
  (run_log potential minimize _check_if_new_minima
     normalize_minimum_inside_pi_range).
#[local] Abbreviation Raw := (raw_minimum potential minimize).
#[local] Abbreviation Normalize := normalize_minimum_inside_pi_range.
#[local] Abbreviation CheckNew := _check_if_new_minima.
#[local] Abbreviation AppendedWhenNew :=
  (appended_when_new _check_if_new_minima normalize_minimum_inside_pi_range).
#[local] Abbreviation RampNew := (ramp_new _check_if_new_minima).
#[local] Abbreviation RampNewb := (ramp_newb _check_if_new_minima).

(** Runs the search on the minima set alone, one deduplicator answer after
    the other, and decides the vocabulary on each log obtained. *)
Ltac run_search :=
  repeat first
    [ progress cbn [ramp_steps fst snd app negb andb orb
                    ramp_ranb ramp_newb existsb last]
    | progress unfold ramp_step
    | match goal with
      | H : _check_if_new_minima ?q ?x ?S = _
        |- context [_check_if_new_minima ?q ?x ?S] => rewrite H
      | |- context [vec2_same ?a ?b] =>
          let v := eval vm_compute in (vec2_same a b) in
          change (vec2_same a b) with v
      | |- context [if _check_if_new_minima ?q ?x ?S then _ else _] =>
          destruct (_check_if_new_minima q x S) eqn:?
      end ].

(** *** The holder in the store *)

Lemma contents_last (q : FluxQubitVCHOSFunctions) (L : list (list Vec2))
    (S : list Vec2) (lg : list event) :
  contents (length L) (mkWorld q (L ++ [S]) lg) = S.
Proof.
  unfold contents; simpl.
  rewrite lookup_app_r by lia.
  replace (length L - length L)%nat with 0%nat by lia.
  reflexivity.
Qed.

Lemma alter_last {A} (f : A -> A) (L : list A) (a : A) :
  alter f (length L) (L ++ [a]) = L ++ [f a].
Proof.
  induction L as [|b L IH]; simpl; [reflexivity|].
  f_equal. exact IH.
Qed.

(** One ramp, run on the newest list of the store. *)
Lemma ramp_at (k : Z) (q : FluxQubitVCHOSFunctions) (L : list (list Vec2))
    (S : list Vec2) (lg tr : list event) :
  Ramp k (length L) (mkWorld q (L ++ [S]) (lg ++ tr)) =
  let '((S', tr'), new) := RampStep q k (S, tr) in
  ((length L, new), mkWorld q (L ++ [S']) (lg ++ tr')).
Proof.
  unfold _ramp, ramp_step, bind, call_minimize, call_check_if_new_minima,
    call_normalize_minimum_inside_pi_range, list_append, ret, raw_minimum.
  cbn [self lists log fst snd].
  rewrite !contents_last.
  destruct (CheckNew q _ S) eqn:Hnew; cbn [self lists log].
  - rewrite alter_last, <- !app_assoc. reflexivity.
  - rewrite <- !app_assoc. reflexivity.
Qed.

(** The loop, run on the newest list of the store. *)
Lemma ramp_loop_at (ks : list Z) (q : FluxQubitVCHOSFunctions)
    (L : list (list Vec2)) (S : list Vec2) (lg tr : list event) :
  RampLoop ks (length L) (mkWorld q (L ++ [S]) (lg ++ tr)) =
  let '(S', tr') := RampSteps q ks (S, tr) in
  (length L, mkWorld q (L ++ [S']) (lg ++ tr')).
Proof.
  revert S tr.
  induction ks as [|k ks IH]; intros S tr; [reflexivity|].
  cbn [ramp_loop ramp_steps]. unfold bind.
  rewrite ramp_at.
  destruct (RampStep q k (S, tr)) as [[S1 tr1] p].
  rewrite ramp_at.
  destruct (RampStep q (- k) (S1, tr1)) as [[S2 tr2] n].
  destruct (negb (p && n)); [reflexivity|apply IH].
Qed.

(** The whole search. *)
Lemma find_minima_at (w : World) :
  FindMinima w =
  let '(S', tr') := RampSteps (self w) (range 1 4) (AnchorState (self w)) in
  (length (lists w), mkWorld (self w) (lists w ++ [S']) (log w ++ tr')).
Proof.
  unfold find_minima, bind, new_list, getattr, call_minimize,
    call_normalize_minimum_inside_pi_range, list_append, anchor_state,
    anchor_guess, raw_minimum.
  cbn [self lists log].
  rewrite alter_last. cbn [app].
  rewrite <- app_assoc. cbn [app].
  apply (ramp_loop_at (range 1 4) (self w) (lists w)).
Qed.

Lemma returned_minima_at (w : World) :
  returned_minima (FindMinima w) =
  fst (RampSteps (self w) (range 1 4) (AnchorState (self w))).
Proof.
  rewrite find_minima_at.
  destruct (RampSteps _ _ _) as [S' tr'].
  unfold returned_minima. cbn [fst snd].
  apply contents_last.
Qed.

Lemma run_log_at (w : World) :
  RunLog w = snd (RampSteps (self w) (range 1 4) (AnchorState (self w))).
Proof.
  unfold run_log. rewrite find_minima_at.
  destruct (RampSteps _ _ _) as [S' tr'].
  cbn [fst snd log].
  apply drop_app_length.
Qed.

(** *** What a ramp adds *)

(** A ramp only appends: at most one minimum, and two or three calls of
    which exactly one is to the optimizer. *)
Lemma ramp_step_extends (q : FluxQubitVCHOSFunctions) (k : Z)
    (S : list Vec2) (tr : list event) :
  exists S2 tr2,
    fst (RampStep q k (S, tr)) = (S ++ S2, tr ++ tr2) /\
    (length S2 <= 1)%nat /\
    minimize_seeds tr2 = [ramp_guess k] /\
    (forall cand holder, In (EvCheckNew cand holder) tr2 -> holder = S).
Proof.
  unfold ramp_step. cbn [fst snd].
  destruct (CheckNew q _ S).
  - eexists [_], [_; _; _]. cbn [fst length].
    repeat split; [lia|].
    intros cand holder [H|[H|[H|[]]]]; congruence.
  - exists [], [EvMinimize (ramp_guess k); EvCheckNew (Raw q (ramp_guess k)) S].
    cbn [fst length]. rewrite app_nil_r.
    repeat split; [lia|].
    intros cand holder [H|[H|[]]]; congruence.
Qed.

Lemma minimize_seeds_app (tr1 tr2 : list event) :
  minimize_seeds (tr1 ++ tr2) = minimize_seeds tr1 ++ minimize_seeds tr2.
Proof. unfold minimize_seeds. apply flat_map_app. Qed.

(** The loop only appends as well: at most two minima and exactly two
    optimizer calls for each index it processes. *)
Lemma ramp_steps_extends (q : FluxQubitVCHOSFunctions) (ks : list Z) :
  forall (S : list Vec2) (tr : list event),
  exists S2 tr2,
    RampSteps q ks (S, tr) = (S ++ S2, tr ++ tr2) /\
    (length S2 <= 2 * length ks)%nat /\
    (length (minimize_seeds tr2) <= 2 * length ks)%nat /\
    (forall cand holder, In (EvCheckNew cand holder) tr2 ->
       exists others, holder = S ++ others).
Proof.
  induction ks as [|k ks IH]; intros S tr.
  - exists [], []. cbn. rewrite !app_nil_r. repeat split; [lia..|].
    intros ? ? [].
  - cbn [ramp_steps].
    destruct (ramp_step_extends q k S tr) as (Sa & ta & Ea & La & Ma & Ca).
    destruct (RampStep q k (S, tr)) as [st1 p]. cbn [fst] in Ea. subst st1.
    destruct (ramp_step_extends q (- k) (S ++ Sa) (tr ++ ta))
      as (Sb & tb & Eb & Lb & Mb & Cb).
    destruct (RampStep q (- k) (S ++ Sa, tr ++ ta)) as [st2 n].
    cbn [fst] in Eb. subst st2.
    assert (Hpair : forall cand holder,
               In (EvCheckNew cand holder) (ta ++ tb) ->
               exists others, holder = S ++ others).
    { intros cand holder Hin. apply in_app_or in Hin as [Hin|Hin].
      - exists []. rewrite app_nil_r. eauto.
      - exists Sa. eauto. }
    destruct (negb (p && n)).
    + exists (Sa ++ Sb), (ta ++ tb). rewrite !app_assoc.
      split; [reflexivity|].
      rewrite minimize_seeds_app, Ma, Mb, !length_app.
      cbn [length]. repeat split; [lia..|]. exact Hpair.
    + destruct (IH ((S ++ Sa) ++ Sb) ((tr ++ ta) ++ tb))
        as (Sc & tc & Ec & Lc & Mc & Cc).
      exists ((Sa ++ Sb) ++ Sc), ((ta ++ tb) ++ tc).
      rewrite Ec, !app_assoc. split; [reflexivity|].
      rewrite !minimize_seeds_app, Ma, Mb, !length_app.
      cbn [length]. repeat split; [lia..|].
      intros cand holder Hin.
      apply in_app_or in Hin as [Hin|Hin]; [exact (Hpair _ _ Hin)|].
      destruct (Cc _ _ Hin) as [others ->].
      exists ((Sa ++ Sb) ++ others). rewrite !app_assoc. reflexivity.
Qed.

(** *** The anchor step *)

(** C2: [find_minima] starts the optimizer from (0.15, 0.1) when [flux] is
    0.5 exactly and from (0, 0) otherwise, and appends the normalized result
    as the first element of the minima set with no deduplication test: the
    first two calls of the run are that optimizer call and the normalization
    of its result, and every deduplication test of the run already sees the
    anchor as first element of the holder.  So the returned set is not empty
    and starts with the normalized anchor result. *)
Theorem find_minima_anchor_first (w : World) :
  let q := self w in
  let guess : Vec2 :=
    if PrimFloat.eqb (flux (params q)) 0.5
    then (0.15, 0.1)%float else (0.0, 0.0)%float in
  let result := minimize (potential q) guess in
  let anchor := Normalize q (OptimizeResult.x result) in
  exists later_minima later_calls,
    returned_minima (FindMinima w) = anchor :: later_minima /\
    RunLog w =
      EvMinimize guess :: EvNormalize (OptimizeResult.x result) :: later_calls /\
    (forall cand holder, In (EvCheckNew cand holder) (RunLog w) ->
       exists others, holder = anchor :: others).
Proof.
  intros q guess result anchor.
  rewrite returned_minima_at, run_log_at. fold q.
  destruct (ramp_steps_extends q (range 1 4) (fst (AnchorState q))
              (snd (AnchorState q))) as (S2 & tr2 & E & _ & _ & C).
  rewrite <- surjective_pairing in E. rewrite E. cbn [fst snd].
  exists S2, tr2. repeat split.
  intros cand holder [H|[H|H]]; [discriminate..|].
  destruct (C _ _ H) as [others ->]. exists others. reflexivity.
Qed.

(** *** Frame *)

(** C8: a call to [find_minima] changes no attribute of the qubit object
    (device parameters and boundary coefficients are what they were), leaves
    every list that existed before as it was, and builds one new list: the
    minima holder it returns. *)
Theorem find_minima_frame (w : World) :
  let w' := snd (FindMinima w) in
  self w' = self w /\
  params (self w') = params (self w) /\
  boundary_coefficients (self w') = boundary_coefficients (self w) /\
  fst (FindMinima w) = length (lists w) /\
  exists minima_holder, lists w' = lists w ++ [minima_holder].
Proof.
  cbn zeta. rewrite find_minima_at.
  destruct (RampSteps _ _ _) as [S' tr']. cbn [fst snd self lists].
  repeat split. exists S'. reflexivity.
Qed.

(** *** Bounds *)

(** C9: [find_minima] returns for every device and every behaviour of the
    optimizer; it calls the optimizer at most 7 times, and the minima set it
    returns has at least 1 and at most 7 elements. *)
Theorem find_minima_terminates_bounded (w : World) :
  exists r w',
    FindMinima w = (r, w') /\
    (length (minimize_seeds (RunLog w)) <= 7)%nat /\
    (1 <= length (returned_minima (r, w')) <= 7)%nat.
Proof.
  exists (fst (FindMinima w)), (snd (FindMinima w)).
  rewrite <- surjective_pairing. split; [reflexivity|].
  rewrite returned_minima_at, run_log_at.
  destruct (ramp_steps_extends (self w) (range 1 4)
              (fst (AnchorState (self w))) (snd (AnchorState (self w))))
    as (S2 & tr2 & E & LS & LM & _).
  rewrite <- surjective_pairing in E. rewrite E. cbn [fst snd].
  rewrite minimize_seeds_app, !length_app.
  change (length (range 1 4)) with 3%nat in LS, LM.
  cbn [anchor_state fst snd minimize_seeds flat_map app length].
  lia.
Qed.

(** *** Determinism *)

(** C7: two calls of [find_minima] on qubit objects built from the same
    device parameters return the same minima set (same length, same order,
    the same floats) and make the same calls, whatever lists exist and
    whatever was logged before, the optimizer being a function of its
    arguments. *)
Theorem find_minima_deterministic
    (EJ1 EJ2 EJ3 ng1 ng2 ECJ1 ECJ2 ECJ3 ECg1 ECg2 flux : float)
    (w1 w2 : World) :
  self w1 = __init__ EJ1 EJ2 EJ3 ng1 ng2 ECJ1 ECJ2 ECJ3 ECg1 ECg2 flux ->
  self w2 = __init__ EJ1 EJ2 EJ3 ng1 ng2 ECJ1 ECJ2 ECJ3 ECg1 ECg2 flux ->
  returned_minima (FindMinima w1) = returned_minima (FindMinima w2) /\
  RunLog w1 = RunLog w2.
Proof.
  intros H1 H2.
  rewrite !returned_minima_at, !run_log_at, H1, H2.
  split; reflexivity.
Qed.

(** *** The convergence report *)

Lemma ramp_reads_x_only
    (minimize' : (Vec2 -> float) -> Vec2 -> OptimizeResult.t)
    (Hx : forall f g,
        OptimizeResult.x (minimize f g) = OptimizeResult.x (minimize' f g))
    (k : Z) (r : loc) (w : World) :
  Ramp k r w = _ramp potential minimize' CheckNew Normalize k r w.
Proof.
  unfold _ramp, bind, call_minimize. rewrite Hx. reflexivity.
Qed.

Lemma ramp_loop_reads_x_only
    (minimize' : (Vec2 -> float) -> Vec2 -> OptimizeResult.t)
    (Hx : forall f g,
        OptimizeResult.x (minimize f g) = OptimizeResult.x (minimize' f g))
    (ks : list Z) :
  forall (r : loc) (w : World),
    RampLoop ks r w = ramp_loop potential minimize' CheckNew Normalize ks r w.
Proof.
  induction ks as [|k ks IH]; intros r w; [reflexivity|].
  cbn [ramp_loop]. unfold bind.
  rewrite (ramp_reads_x_only minimize' Hx).
  destruct (_ramp potential minimize' CheckNew Normalize k r w)
    as [[r1 p] w1].
  rewrite (ramp_reads_x_only minimize' Hx).
  destruct (_ramp potential minimize' CheckNew Normalize (- k) r1 w1)
    as [[r2 n] w2].
  destruct (negb (p && n)); [reflexivity|apply IH].
Qed.

(** C6: the anchor step and every ramp step use the coordinates the
    optimizer returns and nothing else of its result: an optimizer that
    returns the same coordinates with any other report (convergence flag,
    status, objective value, iteration count) gives the same ramp steps and
    the same search, call by call. *)
Theorem find_minima_ignores_convergence
    (minimize' : (Vec2 -> float) -> Vec2 -> OptimizeResult.t) :
  (forall f g,
      OptimizeResult.x (minimize f g) = OptimizeResult.x (minimize' f g)) ->
  (forall k r w,
      Ramp k r w = _ramp potential minimize' CheckNew Normalize k r w) /\
  (forall w,
      FindMinima w = find_minima potential minimize' CheckNew Normalize w).
Proof.
  intros Hx. split.
  - intros k r w. apply ramp_reads_x_only, Hx.
  - intros w. unfold find_minima, bind, new_list, getattr, call_minimize.
    rewrite Hx. cbn [self lists log].
    apply ramp_loop_reads_x_only, Hx.
Qed.

(** *** No duplicates *)

Lemma appended_when_new_step (q : FluxQubitVCHOSFunctions) (k : Z)
    (S : list Vec2) (tr : list event) :
  AppendedWhenNew q S ->
  AppendedWhenNew q (fst (fst (RampStep q k (S, tr)))).
Proof.
  intros Inv. unfold ramp_step. cbn [fst snd].
  destruct (CheckNew q _ S) eqn:Hnew; cbn [fst]; [|exact Inv].
  intros i m Hi Hm.
  apply lookup_snoc_Some in Hm as [[Hlt Hm]|[-> <-]].
  - rewrite take_app_le by lia. exact (Inv i m Hi Hm).
  - rewrite take_app_length. eauto.
Qed.

Lemma appended_when_new_steps (q : FluxQubitVCHOSFunctions) (ks : list Z) :
  forall (S : list Vec2) (tr : list event),
    AppendedWhenNew q S ->
    AppendedWhenNew q (fst (RampSteps q ks (S, tr))).
Proof.
  induction ks as [|k ks IH]; intros S tr Inv; [exact Inv|].
  cbn [ramp_steps].
  pose proof (appended_when_new_step q k S tr Inv) as I1.
  destruct (RampStep q k (S, tr)) as [[S1 tr1] p]. cbn [fst] in I1.
  pose proof (appended_when_new_step q (- k) S1 tr1 I1) as I2.
  destruct (RampStep q (- k) (S1, tr1)) as [[S2 tr2] n]. cbn [fst] in I2.
  destruct (negb (p && n)); [exact I2|apply IH, I2].
Qed.

Lemma appended_when_new_returned (w : World) :
  AppendedWhenNew (self w) (returned_minima (FindMinima w)).
Proof.
  rewrite returned_minima_at.
  rewrite (surjective_pairing (AnchorState (self w))).
  apply appended_when_new_steps.
  intros [|[|i]] m Hi Hm; [lia|discriminate..].
Qed.

(** C5: in the returned minima set every element after the first is the
    normalization of a point that the deduplicator declared new against the
    elements present when it was appended.  So, for a deduplicator that
    decides an equivalence of points (the candidate is new exactly when it is
    equivalent to no element of the set) and a normalizer that stays in the
    class of its argument, every such element is itself declared new against
    the elements before it, and the deduplicator reports the two elements at
    any two different positions as distinct. *)
Theorem find_minima_no_duplicates (equiv : Vec2 -> Vec2 -> Prop) :
  Equivalence equiv ->
  (forall q x S,
      CheckNew q x S = true <-> (forall m, In m S -> ~ equiv x m)) ->
  (forall q x, equiv (Normalize q x) x) ->
  forall w : World,
    let S := returned_minima (FindMinima w) in
    AppendedWhenNew (self w) S /\
    (forall i m, (0 < i)%nat -> S !! i = Some m ->
       CheckNew (self w) m (take i S) = true) /\
    (forall i j mi mj, i <> j -> S !! i = Some mi -> S !! j = Some mj ->
       CheckNew (self w) mi [mj] = true).
Proof.
  intros Heq Hcheck Hnorm w S.
  pose proof (appended_when_new_returned w) as Inv. fold S in Inv.
  split; [exact Inv|].
  assert (Hlater : forall i j mi mj, (i < j)%nat ->
             S !! i = Some mi -> S !! j = Some mj -> ~ equiv mj mi).
  { intros i j mi mj Hij Hi Hj Hequiv.
    destruct (Inv j mj ltac:(lia) Hj) as (x & -> & Hnew).
    apply Hcheck with (m := mi) in Hnew.
    - apply Hnew. transitivity (Normalize (self w) x); [symmetry|]; auto.
    - apply list_elem_of_In, list_elem_of_lookup_2 with (i := i).
      rewrite lookup_take_lt by lia. exact Hi. }
  split.
  - intros i m Hi Hm. apply Hcheck. intros m' Hin Hequiv.
    apply list_elem_of_In, list_elem_of_lookup_1 in Hin as [i' Hi'].
    apply lookup_take_Some in Hi' as [Hi' Hlt].
    exact (Hlater i' i m' m Hlt Hi' Hm Hequiv).
  - intros i j mi mj Hij Hi Hj. apply Hcheck.
    intros m [<-|[]] Hequiv.
    destruct (Nat.lt_total i j) as [Hlt|[Heq'|Hlt]]; [|lia|].
    + apply (Hlater i j mi mj Hlt Hi Hj). symmetry. exact Hequiv.
    + exact (Hlater j i mj mi Hlt Hj Hi Hequiv).
Qed.

(** *** Deciding which ramps ran *)

Lemma vec2_same_spec (a b : Vec2) : vec2_same a b = true <-> a = b.
Proof.
  destruct a as [a1 a2], b as [b1 b2]. unfold vec2_same. cbn [fst snd].
  rewrite andb_true_iff, !FloatAxioms.Leibniz.eqb_spec.
  split; [intros [-> ->]; reflexivity|intros [= -> ->]; auto].
Qed.

Lemma ramp_ran_decide (tr : list event) (k : Z) :
  ramp_ran tr k <-> ramp_ranb tr k = true.
Proof.
  unfold ramp_ran, ramp_ranb. rewrite existsb_exists. split.
  - intros Hin. exists (EvMinimize (ramp_guess k)).
    split; [exact Hin|]. apply vec2_same_spec. reflexivity.
  - intros (e & Hin & He). destruct e as [g| |]; try discriminate.
    apply vec2_same_spec in He. subst g. exact Hin.
Qed.

Lemma ramp_new_decide (q : FluxQubitVCHOSFunctions) (tr : list event) (k : Z) :
  RampNew q tr k <-> RampNewb q tr k = true.
Proof.
  unfold ramp_new. split.
  - intros (pre & cand & holder & post & -> & Hnew).
    induction pre as [|e pre IH]; cbn [app ramp_newb].
    + rewrite Hnew.
      replace (vec2_same (ramp_guess k) (ramp_guess k)) with true
        by (symmetry; apply vec2_same_spec; reflexivity).
      reflexivity.
    + rewrite IH. apply orb_true_r.
  - induction tr as [|e tl IH]; cbn [ramp_newb]; [discriminate|].
    intros H. apply orb_true_iff in H as [H|H].
    + destruct e as [g| |]; try discriminate.
      destruct tl as [|[|cand holder|] post]; try discriminate.
      apply andb_true_iff in H as [Hg Hnew].
      apply vec2_same_spec in Hg. subst g.
      exists [], cand, holder, post. split; [reflexivity|exact Hnew].
    + destruct (IH H) as (pre & cand & holder & post & -> & Hnew).
      exists (e :: pre), cand, holder, post. split; [reflexivity|exact Hnew].
Qed.

(** *** The seeds *)

(** The loop starts the optimizer from the two seeds of each index it
    processes, index after index, and processes an initial segment of its
    indices (the first one at least). *)
Lemma ramp_steps_seeds (q : FluxQubitVCHOSFunctions) (ks : list Z) :
  forall (S : list Vec2) (tr : list event),
  exists n,
    (Nat.min 1 (length ks) <= n <= length ks)%nat /\
    minimize_seeds (snd (RampSteps q ks (S, tr))) =
    minimize_seeds tr ++ flat_map step_seeds (take n ks).
Proof.
  induction ks as [|k ks IH]; intros S tr.
  - exists 0%nat. cbn. rewrite app_nil_r. split; [lia|reflexivity].
  - cbn [ramp_steps].
    destruct (ramp_step_extends q k S tr) as (Sa & ta & Ea & _ & Ma & _).
    destruct (RampStep q k (S, tr)) as [st1 p]. cbn [fst] in Ea. subst st1.
    destruct (ramp_step_extends q (- k) (S ++ Sa) (tr ++ ta))
      as (Sb & tb & Eb & _ & Mb & _).
    destruct (RampStep q (- k) (S ++ Sa, tr ++ ta)) as [st2 n].
    cbn [fst] in Eb. subst st2.
    destruct (negb (p && n)).
    + exists 1%nat. cbn [length snd take flat_map step_seeds app].
      rewrite !minimize_seeds_app, Ma, Mb, <- app_assoc.
      split; [lia|reflexivity].
    + destruct (IH ((S ++ Sa) ++ Sb) ((tr ++ ta) ++ tb)) as (m & Hm & E).
      exists (Datatypes.S m). rewrite E.
      cbn [length take flat_map step_seeds app].
      rewrite !minimize_seeds_app, Ma, Mb, <- !app_assoc.
      split; [lia|reflexivity].
Qed.

(** C4: the ramp indices are those of [range(1, 4)], that is 1, 2, 3 in
    increasing order, and the indices a run uses are the initial segment
    1 .. n of them, where n is the first index at which one of the two ramps
    yields no new minimum, or 3 when there is none: both ramps were new at
    every index before n, and when n < 3 they were not both new at n.  For
    each index [k] used the optimizer is started first from
    (1.15 * 2 pi * k / 3, 2 pi * k / 3) and then from the same formula at
    [-k].  The seeds are given with their values as binary64 numbers. *)
Theorem find_minima_ramp_seeds (w : World) :
  range 1 4 = [1; 2; 3] /\
  (forall k : Z,
      ramp_guess k =
      ((1.15 * 2.0 * np_pi * float_of_int k / 3.0)%float,
       (2.0 * np_pi * float_of_int k / 3.0)%float)) /\
  map ramp_guess [1; 2; 3; -1; -2; -3] =
    [(2.4085543677521746, 2.0943951023931953)%float;
     (4.8171087355043491, 4.1887902047863905)%float;
     (7.2256631032565233, 6.2831853071795862)%float;
     (-2.4085543677521746, -2.0943951023931953)%float;
     (-4.8171087355043491, -4.1887902047863905)%float;
     (-7.2256631032565233, -6.2831853071795862)%float] /\
  exists n,
    (1 <= n <= 3)%nat /\
    minimize_seeds (RunLog w) =
    anchor_guess (self w) ::
      flat_map (fun k => [ramp_guess k; ramp_guess (- k)]) (take n (range 1 4)) /\
    (forall k, In k (take (n - 1) (range 1 4)) ->
       RampNew (self w) (RunLog w) k /\ RampNew (self w) (RunLog w) (- k)) /\
    ((n < 3)%nat ->
     ~ (RampNew (self w) (RunLog w) (Z.of_nat n) /\
        RampNew (self w) (RunLog w) (- Z.of_nat n))).
Proof.
  split; [reflexivity|]. split; [reflexivity|].
  split; [vm_compute; reflexivity|].
  change (range 1 4) with [1; 2; 3].
  assert (Hshape :
    (minimize_seeds (RunLog w) =
       anchor_guess (self w) :: flat_map step_seeds [1] /\
     (RampNewb (self w) (RunLog w) 1 &&
      RampNewb (self w) (RunLog w) (- (1)) = false)%bool) \/
    (minimize_seeds (RunLog w) =
       anchor_guess (self w) :: flat_map step_seeds [1; 2] /\
     RampNewb (self w) (RunLog w) 1 = true /\
     RampNewb (self w) (RunLog w) (- (1)) = true /\
     (RampNewb (self w) (RunLog w) 2 &&
      RampNewb (self w) (RunLog w) (- (2)) = false)%bool) \/
    (minimize_seeds (RunLog w) =
       anchor_guess (self w) :: flat_map step_seeds [1; 2; 3] /\
     RampNewb (self w) (RunLog w) 1 = true /\
     RampNewb (self w) (RunLog w) (- (1)) = true /\
     RampNewb (self w) (RunLog w) 2 = true /\
     RampNewb (self w) (RunLog w) (- (2)) = true)).
  { rewrite run_log_at. change (range 1 4) with [1; 2; 3].
    generalize (self w) as q. intros q.
    unfold anchor_state, anchor_guess.
    destruct (PrimFloat.eqb (flux (params q)) 0.5);
      run_search;
      solve [ left; repeat split; reflexivity
            | right; left; repeat split; reflexivity
            | right; right; repeat split; reflexivity ]. }
  destruct Hshape as [(Hs & H1) | [(Hs & H1 & H1' & H2) | (Hs & H1 & H1' & H2 & H2')]].
  - exists 1%nat. split; [lia|]. split; [exact Hs|]. split.
    + intros k [].
    + intros _ [Ha Hb]. apply ramp_new_decide in Ha, Hb.
      change (Z.of_nat 1) with 1 in Ha, Hb.
      rewrite Ha, Hb in H1. discriminate H1.
  - exists 2%nat. split; [lia|]. split; [exact Hs|]. split.
    + intros k [<-|[]]. split; apply ramp_new_decide; assumption.
    + intros _ [Ha Hb]. apply ramp_new_decide in Ha, Hb.
      change (Z.of_nat 2) with 2 in Ha, Hb.
      rewrite Ha, Hb in H2. discriminate H2.
  - exists 3%nat. split; [lia|]. split; [exact Hs|]. split.
    + intros k [<-|[<-|[]]]; split; apply ramp_new_decide; assumption.
    + intros Hlt. lia.
Qed.

(** *** The stopping rule *)

Lemma range_1_4 : range 1 4 = [1; 2; 3].
Proof. reflexivity. Qed.

(** C1: the ramp loop stops at the first index at which a direction yields
    no new minimum, and at index 3 in any case.  The two ramps of index 1
    are always run; for an index [k] of the loop, the search goes on to
    [k + 1] (the optimizer is started from the seed of [k + 1], and from
    that of [-(k + 1)]) if and only if [k < 3] and the positive and the
    negative ramp of step [k] both produced a new minimum. *)
Theorem find_minima_continues_iff_both_new (w : World) :
  ramp_ran (RunLog w) 1 /\
  ramp_ran (RunLog w) (- (1)) /\
  forall k : Z, In k (range 1 4) ->
    (ramp_ran (RunLog w) (k + 1) <->
     k < 3 /\
     RampNew (self w) (RunLog w) k /\ RampNew (self w) (RunLog w) (- k)) /\
    (ramp_ran (RunLog w) (- (k + 1)) <->
     k < 3 /\
     RampNew (self w) (RunLog w) k /\ RampNew (self w) (RunLog w) (- k)).
Proof.
  assert (Hfirst : ramp_ran (RunLog w) 1 /\ ramp_ran (RunLog w) (- (1))).
  { rewrite !ramp_ran_decide, run_log_at, range_1_4.
    generalize (self w) as q. intros q.
    unfold anchor_state, anchor_guess.
    destruct (PrimFloat.eqb (flux (params q)) 0.5);
      run_search; split; reflexivity. }
  split; [apply Hfirst|]. split; [apply Hfirst|].
  intros k Hk. rewrite range_1_4 in Hk.
  assert (Hcases : k = 1 \/ k = 2 \/ k = 3) by (cbn [In] in Hk; lia).
  clear Hk Hfirst.
  rewrite !ramp_ran_decide, !ramp_new_decide, run_log_at, range_1_4.
  generalize (self w) as q. intros q.
  unfold anchor_state, anchor_guess.
  destruct (PrimFloat.eqb (flux (params q)) 0.5);
  destruct Hcases as [-> | [-> | ->]];
  [change (1 + 1) with 2|change (2 + 1) with 3|change (3 + 1) with 4..];
  run_search;
  repeat match goal with
         | H : _check_if_new_minima _ _ _ = _ |- _ => clear H
         end;
  split;
    (split;
     [ intros H; try discriminate H; repeat split; try reflexivity; lia
     | intros (Hlt & Ha & Hb);
       first [ discriminate Ha | discriminate Hb | lia | reflexivity ] ]).
Qed.


(** *** One ramp step *)

(** One ramp, on any list of the store. *)
Lemma ramp_eq (k : Z) (r : loc) (w : World) :
  Ramp k r w =
  let x := Raw (self w) (ramp_guess k) in
  let S := contents r w in
  if CheckNew (self w) x S
  then ((r, true),
        mkWorld (self w)
          (alter (fun l => l ++ [Normalize (self w) x]) r (lists w))
          (log w ++ [EvMinimize (ramp_guess k); EvCheckNew x S; EvNormalize x]))
  else ((r, false),
        mkWorld (self w) (lists w)
          (log w ++ [EvMinimize (ramp_guess k); EvCheckNew x S])).
Proof.
  unfold _ramp, bind, call_minimize, call_check_if_new_minima,
    call_normalize_minimum_inside_pi_range, list_append, ret, raw_minimum,
    contents.
  cbn [self lists log fst snd].
  destruct (CheckNew (self w) _ _);
    cbn [self lists log]; rewrite <- !app_assoc; reflexivity.
Qed.

(** C3, as the code has it: a ramp step starts the optimizer from the seed
    of its index, hands the coordinates the optimizer returns, as they are,
    to the deduplicator together with the minima found so far, and, when
    they are declared new, normalizes them and appends the normalized point
    to the minima holder; otherwise the holder stays as it is. *)
Theorem ramp_tests_raw_result (k : Z) (r : loc) (w : World) (S : list Vec2) :
  lists w !! r = Some S ->
  let q := self w in
  let x := Raw q (ramp_guess k) in
  let new := CheckNew q x S in
  fst (Ramp k r w) = (r, new) /\
  drop (length (log w)) (log (snd (Ramp k r w))) =
    EvMinimize (ramp_guess k) :: EvCheckNew x S ::
      (if new then [EvNormalize x] else []) /\
  contents r (snd (Ramp k r w)) = (if new then S ++ [Normalize q x] else S).
Proof.
  intros HS q x new.
  assert (HC : contents r w = S) by (unfold contents; rewrite HS; reflexivity).
  rewrite ramp_eq, HC. cbn zeta. fold q x new.
  destruct new; cbn [fst snd log]; rewrite drop_app_length;
    (split; [reflexivity|split; [reflexivity|]]).
  - unfold contents, loc in *. cbn [lists].
    rewrite list_lookup_alter_eq, HS. reflexivity.
  - exact HC.
Qed.

(** ** Further properties of the search *)

(** *** What a ramp and the loop leave alone *)

(** X1: [_ramp] hands back the very list it was given and works on it in
    place: the qubit object, the number of lists and every other list are
    as before; the list itself keeps its elements and gains one exactly
    when the returned flag is [True]; two or three calls are logged. *)
Theorem ramp_in_place (k : Z) (r : loc) (w : World) :
  let run := Ramp k r w in
  fst (fst run) = r /\
  self (snd run) = self w /\
  length (lists (snd run)) = length (lists w) /\
  (forall r' : loc, r' <> r -> lists (snd run) !! r' = lists w !! r') /\
  (forall S, lists w !! r = Some S ->
     exists added,
       lists (snd run) !! r = Some (S ++ added) /\
       length added = (if snd (fst run) then 1 else 0)%nat) /\
  exists calls,
    log (snd run) = log w ++ calls /\ (2 <= length calls <= 3)%nat.
Proof.
  cbn zeta. rewrite ramp_eq. cbn zeta. unfold loc in *.
  destruct (CheckNew (self w) _ _); cbn [fst snd self lists log].
  - split; [reflexivity|]. split; [reflexivity|].
    split; [apply length_alter|].
    split; [intros r' Hr'; apply list_lookup_alter_ne; congruence|].
    split.
    + intros S HS. eexists [_].
      rewrite list_lookup_alter_eq, HS. split; reflexivity.
    + eexists [_; _; _]. split; [reflexivity|cbn; lia].
  - split; [reflexivity|]. split; [reflexivity|].
    split; [reflexivity|].
    split; [reflexivity|].
    split.
    + intros S HS. exists []. rewrite app_nil_r. split; [exact HS|reflexivity].
    + eexists [_; _]. split; [reflexivity|cbn; lia].
Qed.

(** One ramp on a list of the store, for the loop. *)
Lemma ramp_keeps (k : Z) (r : loc) (w : World) (S : list Vec2) :
  lists w !! r = Some S ->
  exists flag w' added,
    Ramp k r w = ((r, flag), w') /\
    self w' = self w /\
    length (lists w') = length (lists w) /\
    (forall r' : loc, r' <> r -> lists w' !! r' = lists w !! r') /\
    lists w' !! r = Some (S ++ added) /\
    (length added <= 1)%nat.
Proof.
  intros HS. rewrite ramp_eq. cbn zeta. unfold loc in *.
  destruct (CheckNew (self w) _ _).
  - eexists true, _, [_]. split; [reflexivity|]. cbn [self lists].
    split; [reflexivity|]. split; [apply length_alter|].
    split; [intros r' Hr'; apply list_lookup_alter_ne; congruence|].
    rewrite list_lookup_alter_eq, HS. split; [reflexivity|cbn; lia].
  - exists false, (mkWorld (self w) (lists w)
                     (log w ++ [EvMinimize (ramp_guess k);
                                EvCheckNew (Raw (self w) (ramp_guess k))
                                  (contents r w)])), [].
    cbn [self lists]. rewrite app_nil_r.
    repeat split; [exact HS|cbn; lia].
Qed.

(** X9: the ramp loop, over any list of indices and on any list of the
    store, hands back that list, leaves the qubit object and every other
    list as they were, creates no list, and only appends: the elements the
    list had are still its first elements, and at most two are added for
    each index. *)
Theorem ramp_loop_only_appends (ks : list Z) (r : loc) (w : World)
    (S : list Vec2) :
  lists w !! r = Some S ->
  let run := RampLoop ks r w in
  fst run = r /\
  self (snd run) = self w /\
  length (lists (snd run)) = length (lists w) /\
  (forall r' : loc, r' <> r -> lists (snd run) !! r' = lists w !! r') /\
  exists added,
    lists (snd run) !! r = Some (S ++ added) /\
    (length added <= 2 * length ks)%nat.
Proof.
  revert w S. induction ks as [|k ks IH]; intros w S HS; cbn zeta.
  - cbn [ramp_loop ret fst snd]. repeat split.
    exists []. rewrite app_nil_r. split; [exact HS|cbn; lia].
  - cbn [ramp_loop]. unfold bind.
    destruct (ramp_keeps k r w S HS)
      as (p & w1 & a1 & E1 & Hs1 & Hl1 & Ho1 & Hr1 & Ha1).
    rewrite E1.
    destruct (ramp_keeps (- k) r w1 (S ++ a1) Hr1)
      as (n & w2 & a2 & E2 & Hs2 & Hl2 & Ho2 & Hr2 & Ha2).
    rewrite E2.
    destruct (negb (p && n)).
    + cbn [ret fst snd].
      split; [reflexivity|]. split; [congruence|]. split; [congruence|].
      split; [intros r' Hr'; rewrite Ho2, Ho1 by exact Hr'; reflexivity|].
      exists (a1 ++ a2). rewrite app_assoc. split; [exact Hr2|].
      rewrite length_app. cbn [length]. lia.
    + destruct (IH w2 ((S ++ a1) ++ a2) Hr2)
        as (Hf & Hs3 & Hl3 & Ho3 & a3 & Hr3 & Ha3).
      split; [exact Hf|]. split; [congruence|]. split; [congruence|].
      split;
        [intros r' Hr'; rewrite Ho3, Ho2, Ho1 by exact Hr'; reflexivity|].
      exists ((a1 ++ a2) ++ a3). rewrite !app_assoc. split; [exact Hr3|].
      rewrite !length_app. cbn [length]. lia.
Qed.

(** *** Invariants of the run *)

(** What every ramp keeps true of the holder and the calls made so far stays
    true along the loop. *)
Lemma ramp_steps_invariant (q : FluxQubitVCHOSFunctions)
    (P : list Vec2 * list event -> Prop) :
  (forall k st, P st -> P (fst (RampStep q k st))) ->
  forall ks st, P st -> P (RampSteps q ks st).
Proof.
  intros Hstep ks. induction ks as [|k ks IH]; intros st Hst; [exact Hst|].
  cbn [ramp_steps].
  pose proof (Hstep k st Hst) as H1.
  destruct (RampStep q k st) as [st1 p]. cbn [fst] in H1.
  pose proof (Hstep (- k) st1 H1) as H2.
  destruct (RampStep q (- k) st1) as [st2 n]. cbn [fst] in H2.
  destruct (negb (p && n)); [exact H2|exact (IH st2 H2)].
Qed.

Lemma find_minima_invariant (w : World)
    (P : list Vec2 * list event -> Prop) :
  P (AnchorState (self w)) ->
  (forall k st, P st -> P (fst (RampStep (self w) k st))) ->
  P (returned_minima (FindMinima w), RunLog w).
Proof.
  intros H0 Hstep.
  rewrite returned_minima_at, run_log_at, <- surjective_pairing.
  apply ramp_steps_invariant; assumption.
Qed.

Lemma normalized_points_app (tr1 tr2 : list event) :
  normalized_points (tr1 ++ tr2) =
  normalized_points tr1 ++ normalized_points tr2.
Proof. unfold normalized_points. apply flat_map_app. Qed.

Lemma check_calls_app (tr1 tr2 : list event) :
  check_calls (tr1 ++ tr2) = check_calls tr1 ++ check_calls tr2.
Proof. unfold check_calls. apply flat_map_app. Qed.

(** X2: the returned minima are, in order, the normalizations of the points
    handed to the normalizer during the run: nothing enters the set except
    through the normalizer, and the normalizer is called for no point that
    is not stored (a candidate declared not new is never normalized). *)
Theorem find_minima_stores_what_it_normalizes (w : World) :
  returned_minima (FindMinima w) =
    map (Normalize (self w)) (normalized_points (RunLog w)) /\
  length (returned_minima (FindMinima w)) =
    length (normalized_points (RunLog w)).
Proof.
  assert (H : returned_minima (FindMinima w) =
              map (Normalize (self w)) (normalized_points (RunLog w))).
  { apply (find_minima_invariant w
             (fun st => fst st =
                map (Normalize (self w)) (normalized_points (snd st)))).
    - reflexivity.
    - intros k [S tr] HP. cbn [fst snd] in HP. unfold ramp_step.
      cbn [fst snd].
      destruct (CheckNew (self w) _ S); cbn [fst snd];
        rewrite normalized_points_app, map_app, <- HP; cbn.
      + reflexivity.
      + symmetry. apply app_nil_r. }
  split; [exact H|]. rewrite H. apply length_map.
Qed.

(** X8: the deduplicator is called once for each ramp seed and never for the
    anchor: the run has one optimizer call more than deduplicator calls,
    and 2, 4 or 6 deduplicator calls. *)
Theorem find_minima_check_calls (w : World) :
  length (minimize_seeds (RunLog w)) =
    Datatypes.S (length (check_calls (RunLog w))) /\
  (length (check_calls (RunLog w)) = 2 \/
   length (check_calls (RunLog w)) = 4 \/
   length (check_calls (RunLog w)) = 6)%nat.
Proof.
  assert (H : length (minimize_seeds (RunLog w)) =
              Datatypes.S (length (check_calls (RunLog w)))).
  { apply (find_minima_invariant w
             (fun st => length (minimize_seeds (snd st)) =
                        Datatypes.S (length (check_calls (snd st))))).
    - reflexivity.
    - intros k [S tr] HP. cbn [fst snd] in HP. unfold ramp_step.
      cbn [fst snd].
      destruct (CheckNew (self w) _ S); cbn [fst snd];
        rewrite minimize_seeds_app, check_calls_app, !length_app, HP;
        cbn; lia. }
  split; [exact H|].
  rewrite run_log_at in H |- *.
  destruct (ramp_steps_seeds (self w) (range 1 4)
              (fst (AnchorState (self w))) (snd (AnchorState (self w))))
    as (n & Hn & E).
  rewrite <- surjective_pairing in E. rewrite E in H.
  change (length (range 1 4)) with 3%nat in Hn.
  assert (Hn' : n = 1%nat \/ n = 2%nat \/ n = 3%nat) by lia.
  rewrite range_1_4, length_app in H. rewrite range_1_4.
  destruct Hn' as [-> | [-> | ->]];
    cbn [anchor_state snd minimize_seeds take flat_map step_seeds app length]
      in H; lia.
Qed.

(** X3: the search only appends to the holder.  Every holder the
    deduplicator was handed during the run is an initial segment of the
    returned minima set: no element is ever removed, replaced or moved. *)
Theorem find_minima_holders_are_prefixes (w : World) (cand : Vec2)
    (holder : list Vec2) :
  In (cand, holder) (check_calls (RunLog w)) ->
  holder `prefix_of` returned_minima (FindMinima w).
Proof.
  revert cand holder.
  apply (find_minima_invariant w
           (fun st => forall cand holder,
                In (cand, holder) (check_calls (snd st)) ->
                holder `prefix_of` fst st)).
  - intros cand holder [].
  - intros k [S tr] HP. cbn [fst snd] in HP. unfold ramp_step.
    cbn [fst snd].
    destruct (CheckNew (self w) _ S); cbn [fst snd];
      intros cand holder Hin; rewrite check_calls_app in Hin;
      apply in_app_or in Hin as [Hin|Hin].
    + apply prefix_app_r. exact (HP _ _ Hin).
    + destruct Hin as [[= <- <-]|[]]. apply prefix_app_r. reflexivity.
    + exact (HP _ _ Hin).
    + destruct Hin as [[= <- <-]|[]]. reflexivity.
Qed.

(** X4: the returned minima come in the order of the seeds.  They are a
    subsequence of the normalized optimizer results of the seeds used, in
    the order the optimizer was started from them: anchor, then for each
    index the positive and then the negative ramp. *)
Theorem find_minima_in_seed_order (w : World) :
  returned_minima (FindMinima w) `sublist_of`
  map (fun seed => Normalize (self w) (Raw (self w) seed))
      (minimize_seeds (RunLog w)).
Proof.
  apply (find_minima_invariant w
           (fun st => fst st `sublist_of`
              map (fun seed => Normalize (self w) (Raw (self w) seed))
                  (minimize_seeds (snd st)))).
  - reflexivity.
  - intros k [S tr] HP. cbn [fst snd] in HP. unfold ramp_step.
    cbn [fst snd].
    destruct (CheckNew (self w) _ S); cbn [fst snd];
      rewrite minimize_seeds_app, map_app.
    + apply sublist_app; [exact HP|reflexivity].
    + apply sublist_inserts_r. exact HP.
Qed.

(** *** Cost and outcome *)

(** X5: the size of the returned set settles how far the search went: with
    1 or 2 minima the optimizer was called 3 times, with 3 or 4 minima 5
    times, and with 5 to 7 minima 7 times. *)
Theorem find_minima_calls_from_size (w : World) :
  length (minimize_seeds (RunLog w)) =
  (1 + 2 * Nat.min 3 (Nat.div2 (length (returned_minima (FindMinima w)) + 1)))%nat.
Proof.
  rewrite returned_minima_at, run_log_at, range_1_4.
  generalize (self w) as q. intros q.
  unfold anchor_state, anchor_guess.
  destruct (PrimFloat.eqb (flux (params q)) 0.5);
    run_search; reflexivity.
Qed.

(** X10: when the deduplicator declares every ramp result new, the search
    returns seven minima in the order of discovery: the anchor, then for
    k = 1, 2, 3 the normalized result of the positive ramp followed by that
    of the negative ramp. *)
Theorem find_minima_all_new (w : World) :
  (forall x S, CheckNew (self w) x S = true) ->
  returned_minima (FindMinima w) =
  map (fun seed => Normalize (self w) (Raw (self w) seed))
    [anchor_guess (self w);
     ramp_guess 1; ramp_guess (- (1));
     ramp_guess 2; ramp_guess (- (2));
     ramp_guess 3; ramp_guess (- (3))].
Proof.
  intros Hnew.
  rewrite returned_minima_at, range_1_4.
  cbn [ramp_steps]. unfold ramp_step, anchor_state.
  repeat first [rewrite Hnew | progress cbn [fst snd negb andb app]].
  reflexivity.
Qed.

(** *** Calling the search again *)

(** X6: a second call of [find_minima] right after a first one builds a list
    of its own with the same minima: it returns another list than the first
    call did, leaves the first list as it was, and leaves the qubit object
    unchanged. *)
Theorem find_minima_twice (w : World) :
  let first := FindMinima w in
  let second := FindMinima (snd first) in
  fst second = Datatypes.S (fst first) /\
  returned_minima second = returned_minima first /\
  contents (fst first) (snd second) = returned_minima first /\
  self (snd second) = self w.
Proof.
  cbn zeta.
  pose proof (returned_minima_at (snd (FindMinima w))) as R2.
  pose proof (returned_minima_at w) as R1.
  rewrite (find_minima_at (snd (FindMinima w))).
  rewrite (find_minima_at (snd (FindMinima w))) in R2.
  rewrite find_minima_at in R1, R2 |- *.
  destruct (RampSteps (self w) (range 1 4) (AnchorState (self w)))
    as [S1 tr1] eqn:E1.
  cbn [fst snd self lists log] in *. rewrite E1 in *.
  cbn [fst snd self lists log] in *.
  split; [rewrite length_app; cbn; lia|].
  split; [congruence|].
  split; [|reflexivity].
  rewrite R1. unfold contents. cbn [lists].
  rewrite lookup_app_l by (rewrite length_app; cbn; lia).
  rewrite lookup_app_r by lia.
  replace (length (lists w) - length (lists w))%nat with 0%nat by lia.
  reflexivity.
Qed.

(** *** The frustration point *)

Lemma eqb_one_half (f : float) :
  PrimFloat.eqb f 0.5 = true <-> f = 0.5%float.
Proof.
  split.
  - intros H. rewrite FloatAxioms.eqb_spec in H.
    apply FloatAxioms.Prim2SF_inj.
    remember (Prim2SF 0.5) as half eqn:Hhalf. vm_compute in Hhalf. subst half.
    unfold SpecFloat.SFeqb, SpecFloat.SFcompare in H.
    destruct (Prim2SF f) as [[]|[]| |[] m e]; try discriminate H.
    destruct (Z.compare e (-53)) eqn:He; try discriminate H.
    apply Z.compare_eq in He.
    destruct (Pos.compare_cont Eq m 4503599627370496) eqn:Hm;
      try discriminate H.
    apply Pos.compare_eq in Hm.
    subst. reflexivity.
  - intros ->. reflexivity.
Qed.

(** X7: the off-origin anchor seed is used for one value of [flux] only, the
    binary64 number 0.5.  For every other value, among them NaN and values
    such as 1.5 or -0.5, the search starts the optimizer at the origin. *)
Theorem find_minima_anchor_seed (w : World) :
  (flux (params (self w)) = 0.5%float ->
   head (minimize_seeds (RunLog w)) = Some (0.15, 0.1)%float) /\
  (flux (params (self w)) <> 0.5%float ->
   head (minimize_seeds (RunLog w)) = Some (0.0, 0.0)%float) /\
  (In (flux (params (self w))) [PrimFloat.nan; 1.5; -0.5]%float ->
   head (minimize_seeds (RunLog w)) = Some (0.0, 0.0)%float).
Proof.
  assert (Hhead : head (minimize_seeds (RunLog w)) =
                  Some (anchor_guess (self w))).
  { rewrite run_log_at.
    destruct (ramp_steps_seeds (self w) (range 1 4)
                (fst (AnchorState (self w))) (snd (AnchorState (self w))))
      as (n & _ & E).
    rewrite <- surjective_pairing in E. rewrite E. reflexivity. }
  rewrite Hhead. unfold anchor_guess.
  assert (Hother : flux (params (self w)) <> 0.5%float ->
            Some (if PrimFloat.eqb (flux (params (self w))) 0.5
                  then (0.15, 0.1)%float else (0.0, 0.0)%float) =
            Some (0.0, 0.0)%float).
  { intros Hne.
    destruct (PrimFloat.eqb (flux (params (self w))) 0.5) eqn:E;
      [|reflexivity].
    apply eqb_one_half in E. contradiction. }
  split; [intros ->; reflexivity|].
  split; [exact Hother|].
  intros [H|[H|[H|[]]]]; rewrite <- H; reflexivity.
Qed.

(** *** What the search reads of the object *)

Lemma ramp_steps_same_collaborators (q1 q2 : FluxQubitVCHOSFunctions) :
  (forall g, Raw q1 g = Raw q2 g) ->
  (forall x S, CheckNew q1 x S = CheckNew q2 x S) ->
  (forall x, Normalize q1 x = Normalize q2 x) ->
  forall ks st, RampSteps q1 ks st = RampSteps q2 ks st.
Proof.
  intros Hraw Hcheck Hnorm ks.
  assert (Hstep : forall k st, RampStep q1 k st = RampStep q2 k st).
  { intros k st. unfold ramp_step. rewrite Hraw, Hcheck, Hnorm. reflexivity. }
  induction ks as [|k ks IH]; intros st; [reflexivity|].
  cbn [ramp_steps]. rewrite Hstep.
  destruct (RampStep q2 k st) as [st1 p]. rewrite Hstep.
  destruct (RampStep q2 (- k) st1) as [st2 n].
  destruct (negb (p && n)); [reflexivity|apply IH].
Qed.

(** X11: of the qubit object, [find_minima] itself reads [flux], and only to
    compare it with 0.5; everything else goes through the collaborators.
    Two objects, whatever their parameters, on which the comparison gives
    the same answer and the optimizer, the deduplicator and the normalizer
    behave alike, give the same minima set and the same calls. *)
Theorem find_minima_reads_flux_only (w1 w2 : World) :
  PrimFloat.eqb (flux (params (self w1))) 0.5 =
    PrimFloat.eqb (flux (params (self w2))) 0.5 ->
  (forall g, Raw (self w1) g = Raw (self w2) g) ->
  (forall x S, CheckNew (self w1) x S = CheckNew (self w2) x S) ->
  (forall x, Normalize (self w1) x = Normalize (self w2) x) ->
  returned_minima (FindMinima w1) = returned_minima (FindMinima w2) /\
  RunLog w1 = RunLog w2.
Proof.
  intros Hflux Hraw Hcheck Hnorm.
  rewrite !returned_minima_at, !run_log_at.
  assert (Hanchor : AnchorState (self w1) = AnchorState (self w2)).
  { unfold anchor_state, anchor_guess. rewrite Hflux, Hraw, Hnorm.
    reflexivity. }
  rewrite Hanchor.
  rewrite (ramp_steps_same_collaborators (self w1) (self w2) Hraw Hcheck Hnorm).
  split; reflexivity.
Qed.

End Properties.

(** ** The properties on concrete runs *)

Import Demo.

(** C3: with a deduplicator that compares points as they are and a holder
    that already has the folded seed of index 2, the ramp at index 2 hands
    the unfolded optimizer result to the deduplicator, which declares it
    new, and the folded point is stored a second time; had the normalized
    point been tested, it would have been found in the holder. *)
Lemma ramp_tests_raw_result_counterexample :
  _ramp flat_potential stay_minimize exact_check fold_normalize 2 0%nat
    holder_world =
  ((0%nat, true),
   mkWorld default_qubit
     [[(-1.4660765716752371, -2.0943951023931957)%float;
       (-1.4660765716752371, -2.0943951023931957)%float]]
     [EvMinimize (4.8171087355043491, 4.1887902047863905)%float;
      EvCheckNew (4.8171087355043491, 4.1887902047863905)%float
        [(-1.4660765716752371, -2.0943951023931957)%float];
      EvNormalize (4.8171087355043491, 4.1887902047863905)%float]) /\
  fst (_ramp_normalize_then_test flat_potential stay_minimize exact_check
         fold_normalize 2 0%nat holder_world) = (0%nat, false) /\
  fold_normalize default_qubit
    (raw_minimum flat_potential stay_minimize default_qubit (ramp_guess 2)) =
  (-1.4660765716752371, -2.0943951023931957)%float /\
  ~ ramp_tests_normalized flat_potential stay_minimize exact_check
      fold_normalize 2 0%nat holder_world.
Proof.
  split; [vm_compute; reflexivity|].
  split; [vm_compute; reflexivity|].
  split; [vm_compute; reflexivity|].
  intros H.
  specialize (H (4.8171087355043491, 4.1887902047863905)%float
                [(-1.4660765716752371, -2.0943951023931957)%float]).
  assert (Hin : In (EvCheckNew (4.8171087355043491, 4.1887902047863905)%float
                      [(-1.4660765716752371, -2.0943951023931957)%float])
                   (drop (length (log holder_world))
                      (log (snd (_ramp flat_potential stay_minimize
                                   exact_check fold_normalize 2 0%nat
                                   holder_world))))).
  { vm_compute. right. left. reflexivity. }
  apply H in Hin.
  apply (f_equal (fun v => vec2_eqb v
                   (4.8171087355043491, 4.1887902047863905)%float)) in Hin.
  vm_compute in Hin. discriminate.
Qed.

(** The ramp step of C3 on that run. *)
Lemma ramp_tests_raw_result_witness :
  lists holder_world !! 0%nat =
    Some [fold_normalize default_qubit (ramp_guess 2)] /\
  fst (_ramp flat_potential stay_minimize exact_check fold_normalize 2 0%nat
         holder_world) =
    (0%nat,
     exact_check default_qubit
       (OptimizeResult.x
          (stay_minimize (flat_potential default_qubit) (ramp_guess 2)))
       [fold_normalize default_qubit (ramp_guess 2)]).
Proof.
  split; [reflexivity|].
  apply (ramp_tests_raw_result flat_potential stay_minimize exact_check
           fold_normalize 2 0%nat holder_world
           [fold_normalize default_qubit (ramp_guess 2)]).
  reflexivity.
Defined.

(** C1: in the run in which every ramp finds a new minimum, both ramps of
    index 3 are run and produce a new minimum, and the search does not go
    on to index 4. *)
Lemma find_minima_continues_iff_both_new_counterexample :
  In 3 (range 1 4) /\
  ramp_ran (run_log flat_potential stay_minimize always_new keep fresh_world)
    3 /\
  ramp_new always_new (self fresh_world)
    (run_log flat_potential stay_minimize always_new keep fresh_world) 3 /\
  ramp_new always_new (self fresh_world)
    (run_log flat_potential stay_minimize always_new keep fresh_world)
    (- (3)) /\
  ~ ramp_ran
      (run_log flat_potential stay_minimize always_new keep fresh_world)
      (3 + 1) /\
  ~ (ramp_ran
       (run_log flat_potential stay_minimize always_new keep fresh_world)
       (3 + 1) <->
     ramp_new always_new (self fresh_world)
       (run_log flat_potential stay_minimize always_new keep fresh_world) 3 /\
     ramp_new always_new (self fresh_world)
       (run_log flat_potential stay_minimize always_new keep fresh_world)
       (- (3))).
Proof.
  assert (Hran : ramp_ran
            (run_log flat_potential stay_minimize always_new keep fresh_world)
            3).
  { apply (proj2 (ramp_ran_decide _ _)). vm_compute. reflexivity. }
  assert (Hp : ramp_new always_new (self fresh_world)
            (run_log flat_potential stay_minimize always_new keep fresh_world)
            3).
  { apply (proj2 (ramp_new_decide _ _ _ _)). vm_compute. reflexivity. }
  assert (Hn : ramp_new always_new (self fresh_world)
            (run_log flat_potential stay_minimize always_new keep fresh_world)
            (- (3))).
  { apply (proj2 (ramp_new_decide _ _ _ _)). vm_compute. reflexivity. }
  assert (Hstop : ~ ramp_ran
            (run_log flat_potential stay_minimize always_new keep fresh_world)
            (3 + 1)).
  { intros H. apply (proj1 (ramp_ran_decide _ _)) in H.
    vm_compute in H. discriminate H. }
  split; [right; right; left; reflexivity|].
  split; [exact Hran|]. split; [exact Hp|]. split; [exact Hn|].
  split; [exact Hstop|].
  intros [_ H]. apply Hstop, H. split; assumption.
Qed.

(** C4: in the run that finds two minima the first positive ramp yields
    nothing new; the seeds used are the anchor and those of index 1, and
    the indices 2 and 3 are not used. *)
Lemma find_minima_ramp_seeds_counterexample :
  minimize_seeds
    (run_log flat_potential stay_minimize quadrant_check keep fresh_world) =
  [(0, 0)%float;
   (2.4085543677521746, 2.0943951023931953)%float;
   (-2.4085543677521746, -2.0943951023931953)%float] /\
  ~ ramp_ran
      (run_log flat_potential stay_minimize quadrant_check keep fresh_world) 2 /\
  ~ ramp_ran
      (run_log flat_potential stay_minimize quadrant_check keep fresh_world)
      (- (2)) /\
  ~ ramp_ran
      (run_log flat_potential stay_minimize quadrant_check keep fresh_world) 3 /\
  ~ ramp_ran
      (run_log flat_potential stay_minimize quadrant_check keep fresh_world)
      (- (3)).
Proof.
  split; [vm_compute; reflexivity|].
  repeat apply conj; intros H; apply (proj1 (ramp_ran_decide _ _)) in H;
    vm_compute in H; discriminate H.
Qed.

Lemma same_quadrantb_spec (a b : Vec2) :
  same_quadrantb a b = true <-> same_quadrant a b.
Proof.
  unfold same_quadrantb, same_quadrant.
  destruct (quadrant a) as [[] []], (quadrant b) as [[] []]; cbn;
    split; intros H; try reflexivity; discriminate H.
Qed.

Lemma same_quadrant_equivalence : Equivalence same_quadrant.
Proof.
  unfold same_quadrant. split.
  - intros a. reflexivity.
  - intros a b H. symmetry. exact H.
  - intros a b c H1 H2. rewrite H1. exact H2.
Qed.

Lemma quadrant_check_spec (q : FluxQubitVCHOSFunctions) (x : Vec2)
    (S : list Vec2) :
  quadrant_check q x S = true <-> (forall m, In m S -> ~ same_quadrant x m).
Proof.
  unfold quadrant_check. rewrite forallb_forall.
  split; intros H m Hin; specialize (H m Hin).
  - rewrite <- same_quadrantb_spec. destruct (same_quadrantb x m);
      [discriminate H|discriminate].
  - rewrite <- same_quadrantb_spec in H. destruct (same_quadrantb x m);
      [exfalso; apply H; reflexivity|reflexivity].
Qed.

(** C5 on a run that finds two minima: the deduplicator tells quadrants
    apart and the normalizer keeps the point. *)
Lemma find_minima_no_duplicates_witness :
  Equivalence same_quadrant /\
  (forall q x S,
      quadrant_check q x S = true <->
      (forall m, In m S -> ~ same_quadrant x m)) /\
  (forall q x, same_quadrant (keep q x) x) /\
  returned_minima
    (find_minima flat_potential stay_minimize quadrant_check keep fresh_world) =
  [(0, 0)%float; (-2.4085543677521746, -2.0943951023931953)%float] /\
  appended_when_new quadrant_check keep (self fresh_world)
    (returned_minima
       (find_minima flat_potential stay_minimize quadrant_check keep
          fresh_world)) /\
  (forall i m, (0 < i)%nat ->
     returned_minima
       (find_minima flat_potential stay_minimize quadrant_check keep
          fresh_world) !! i = Some m ->
     quadrant_check (self fresh_world) m
       (take i (returned_minima
                  (find_minima flat_potential stay_minimize quadrant_check keep
                     fresh_world))) = true) /\
  (forall i j mi mj, i <> j ->
     returned_minima
       (find_minima flat_potential stay_minimize quadrant_check keep
          fresh_world) !! i = Some mi ->
     returned_minima
       (find_minima flat_potential stay_minimize quadrant_check keep
          fresh_world) !! j = Some mj ->
     quadrant_check (self fresh_world) mi [mj] = true).
Proof.
  split; [exact same_quadrant_equivalence|].
  split; [exact quadrant_check_spec|].
  split; [intros q x; reflexivity|].
  split; [vm_compute; reflexivity|].
  apply (find_minima_no_duplicates flat_potential stay_minimize quadrant_check
           keep same_quadrant same_quadrant_equivalence quadrant_check_spec
           (fun q x => eq_refl) fresh_world).
Defined.

(** C6 on two optimizers that return the same point, one reporting success
    and the other failure. *)
Lemma find_minima_ignores_convergence_witness :
  (forall f g,
      OptimizeResult.x (stay_minimize f g) =
      OptimizeResult.x (stay_minimize_failed f g)) /\
  (forall f g,
      OptimizeResult.success (stay_minimize f g) = true /\
      OptimizeResult.success (stay_minimize_failed f g) = false) /\
  (forall k r w,
      _ramp flat_potential stay_minimize exact_check fold_normalize k r w =
      _ramp flat_potential stay_minimize_failed exact_check fold_normalize
        k r w) /\
  (forall w,
      find_minima flat_potential stay_minimize exact_check fold_normalize w =
      find_minima flat_potential stay_minimize_failed exact_check
        fold_normalize w).
Proof.
  split; [intros f g; reflexivity|].
  split; [intros f g; split; reflexivity|].
  apply (find_minima_ignores_convergence flat_potential stay_minimize
           exact_check fold_normalize stay_minimize_failed).
  intros f g. reflexivity.
Defined.

(** C7 on two worlds holding the default device, one fresh and one in which
    lists and logged calls already exist. *)
Lemma find_minima_deterministic_witness :
  self fresh_world = __init__ 1 1 0.8 0 0 0.1 0.1 0.1 5 5 0.46 /\
  self used_world = __init__ 1 1 0.8 0 0 0.1 0.1 0.1 5 5 0.46 /\
  returned_minima
    (find_minima flat_potential stay_minimize exact_check fold_normalize
       fresh_world) =
  returned_minima
    (find_minima flat_potential stay_minimize exact_check fold_normalize
       used_world) /\
  run_log flat_potential stay_minimize exact_check fold_normalize fresh_world =
  run_log flat_potential stay_minimize exact_check fold_normalize used_world.
Proof.
  split; [reflexivity|]. split; [reflexivity|].
  apply (find_minima_deterministic flat_potential stay_minimize exact_check
           fold_normalize 1 1 0.8 0 0 0.1 0.1 0.1 5 5 0.46
           fresh_world used_world); reflexivity.
Defined.


(** X3 on the run that finds two minima: the first deduplicator call saw
    the anchor alone. *)
Lemma find_minima_holders_are_prefixes_witness :
  In (ramp_guess 1, [(0, 0)%float])
     (check_calls
        (run_log flat_potential stay_minimize quadrant_check keep fresh_world)) /\
  [(0, 0)%float] `prefix_of`
    returned_minima
      (find_minima flat_potential stay_minimize quadrant_check keep fresh_world).
Proof.
  assert (Hin : In (ramp_guess 1, [(0, 0)%float])
                  (check_calls
                     (run_log flat_potential stay_minimize quadrant_check keep
                        fresh_world))).
  { vm_compute. left. reflexivity. }
  split; [exact Hin|].
  exact (find_minima_holders_are_prefixes flat_potential stay_minimize
           quadrant_check keep fresh_world (ramp_guess 1) [(0, 0)%float] Hin).
Defined.

(** X9 on a store with two lists: the loop over the indices 1 and 2 works on
    the first list and leaves the second one alone. *)
Lemma ramp_loop_only_appends_witness :
  lists used_world !! 0%nat = Some [(1, 2)%float] /\
  fst (ramp_loop flat_potential stay_minimize exact_check fold_normalize
         [1; 2] 0%nat used_world) = 0%nat /\
  lists (snd (ramp_loop flat_potential stay_minimize exact_check
                fold_normalize [1; 2] 0%nat used_world)) !! 1%nat =
    lists used_world !! 1%nat.
Proof.
  split; [reflexivity|].
  destruct (ramp_loop_only_appends flat_potential stay_minimize exact_check
              fold_normalize [1; 2] 0%nat used_world [(1, 2)%float] eq_refl)
    as (Hret & _ & _ & Hother & _).
  split; [exact Hret|].
  apply Hother. discriminate.
Defined.

(** X10 on the run in which every ramp result is declared new. *)
Lemma find_minima_all_new_witness :
  (forall x S, always_new (self fresh_world) x S = true) /\
  returned_minima
    (find_minima flat_potential stay_minimize always_new keep fresh_world) =
  [(0, 0)%float;
   (2.4085543677521746, 2.0943951023931953)%float;
   (-2.4085543677521746, -2.0943951023931953)%float;
   (4.8171087355043491, 4.1887902047863905)%float;
   (-4.8171087355043491, -4.1887902047863905)%float;
   (7.2256631032565233, 6.2831853071795862)%float;
   (-7.2256631032565233, -6.2831853071795862)%float].
Proof.
  split; [intros x S; reflexivity|].
  rewrite (find_minima_all_new flat_potential stay_minimize always_new keep
             fresh_world (fun x S => eq_refl)).
  vm_compute. reflexivity.
Defined.

(** X11 on two devices with different energies, charges and flux, with
    collaborators that do not look at the device. *)
Lemma find_minima_reads_flux_only_witness :
  params (self fresh_world) <> params (self other_world) /\
  PrimFloat.eqb (flux (params (self fresh_world))) 0.5 =
    PrimFloat.eqb (flux (params (self other_world))) 0.5 /\
  returned_minima
    (find_minima flat_potential stay_minimize exact_check fold_normalize
       fresh_world) =
  returned_minima
    (find_minima flat_potential stay_minimize exact_check fold_normalize
       other_world) /\
  run_log flat_potential stay_minimize exact_check fold_normalize fresh_world =
  run_log flat_potential stay_minimize exact_check fold_normalize other_world.
Proof.
  split.
  - intros H. apply (f_equal (fun p => PrimFloat.eqb (EJ1 p) 1)) in H.
    vm_compute in H. discriminate H.
  - split; [reflexivity|].
    apply (find_minima_reads_flux_only flat_potential stay_minimize exact_check
             fold_normalize fresh_world other_world);
      [reflexivity|intros g; reflexivity|intros x S; reflexivity
      |intros x; reflexivity].
Defined.
